(** * tailwind.config.js: the exported theme configuration record

    The repository is one CommonJS module whose body is a single
    assignment of an object literal to [module.exports].  The development
    below embeds

    - the JavaScript values the literal is built from (strings, arrays,
      objects with ordered own properties),
    - the evaluation of an object literal (property definitions applied
      left to right, a repeated name overwriting the earlier value),
    - the module body as a function on the [module] object,
    - the text of the file and a reader for the fragment of JavaScript
      it is written in,

    and states the structural properties of the record over them. *)

From Stdlib Require Import String Ascii List Bool Arith Lia Permutation.
Import ListNotations.
Open Scope string_scope.

Set Implicit Arguments.
Set Warnings "-register-all".

(** ** JavaScript values *)

Module Js.

(** The values that occur in the configuration: string primitives, array
    objects and ordinary objects.  An ordinary object is the list of its own
    enumerable properties in creation order. *)
Inductive value : Type :=
| Undefined : value
| Str : string -> value
| Arr : list value -> value
| Obj : list (string * value) -> value.

Definition props := list (string * value).

(** [o.k] / [o[k]] on own properties. *)
Fixpoint get (k : string) (o : props) : option value :=
  match o with
  | [] => None
  | (k', v) :: rest => if String.eqb k k' then Some v else get k rest
  end.

(** [o.k = v]: an existing property keeps its position and takes the new
    value, a new property is appended. *)
Fixpoint set (k : string) (v : value) (o : props) : props :=
  match o with
  | [] => [(k, v)]
  | (k', v') :: rest =>
      if String.eqb k k' then (k', v) :: rest else (k', v') :: set k v rest
  end.

(** [Object.keys(o)]. *)
Definition keys (o : props) : list string := map fst o.

(** [Object.values(o)]. *)
Definition values (o : props) : list value := map snd o.

(** Evaluation of an object literal [{ k1: v1, ..., kn: vn }]: the property
    definitions are applied in source order to a fresh empty object.  The
    names are taken to be ordinary ones, as all names of the file are: an
    array index, which JavaScript enumerates before the other names, and
    [__proto__], which sets the prototype, are outside this model. *)
Definition literal (defs : list (string * value)) : props :=
  fold_left (fun o kv => set (fst kv) (snd kv) o) defs [].

(** Property access on a value; anything but an object has no own
    properties in this fragment. *)
Definition field (k : string) (v : value) : option value :=
  match v with
  | Obj o => get k o
  | _ => None
  end.

(** Path access [v.k1.k2...kn]. *)
Fixpoint path (ks : list string) (v : value) : option value :=
  match ks with
  | [] => Some v
  | k :: ks' =>
      match field k v with
      | Some v' => path ks' v'
      | None => None
      end
  end.

Definition is_string (v : value) : bool :=
  match v with Str _ => true | _ => false end.

Definition is_array (v : value) : bool :=
  match v with Arr _ => true | _ => false end.

Definition is_object (v : value) : bool :=
  match v with Obj _ => true | _ => false end.

End Js.

(** ** The module *)

(** Property definitions of the [colors] literal, lines 7-8. *)
Definition colors_defs : list (string * Js.value) :=
  [ ("primary", Js.Str "#d4a574");
    ("secondary", Js.Str "#8b7355") ].

(** Property definitions of the [extend] literal, lines 6-9. *)
Definition extend_defs : list (string * Js.value) :=
  [ ("colors", Js.Obj (Js.literal colors_defs)) ].

(** Property definitions of the [theme] literal, lines 5-10. *)
Definition theme_defs : list (string * Js.value) :=
  [ ("extend", Js.Obj (Js.literal extend_defs)) ].

(** Property definitions of the exported literal, lines 3-12. *)
Definition config_defs : list (string * Js.value) :=
  [ ("content", Js.Arr [ Js.Str "./templates/**/*.{html,js}" ]);
    ("theme", Js.Obj (Js.literal theme_defs));
    ("plugins", Js.Arr []) ].

(** The value of the right-hand side of [module.exports = { ... }]. *)
Definition tailwind_config : Js.value := Js.Obj (Js.literal config_defs).

(** The module body, as the CommonJS loader runs it: a function of the
    [module] object whose only effect is the assignment to [exports]. *)
Definition module_body (module : Js.props) : Js.props :=
  Js.set "exports" tailwind_config module.

(** [require] of the module: the loader creates [module] with an empty
    [exports] object, runs the body and hands out [module.exports]. *)
Definition fresh_module : Js.props := [ ("exports", Js.Obj []) ].

Definition require_config : option Js.value :=
  Js.get "exports" (module_body fresh_module).

(** The exported configuration record, as a consumer of the module holds
    it. *)
Definition exported_config : Js.value :=
  match require_config with
  | Some cfg => cfg
  | None => Js.Undefined
  end.

(** *** Readers of the record, as the build tool takes its fields *)

Definition content (cfg : Js.value) : option Js.value := Js.field "content" cfg.
Definition plugins (cfg : Js.value) : option Js.value := Js.field "plugins" cfg.
Definition colors (cfg : Js.value) : option Js.value :=
  Js.path ["theme"; "extend"; "colors"] cfg.

(** The own properties of [theme.extend.colors] ([[]] when it is not an
    object). *)
Definition color_entries (cfg : Js.value) : Js.props :=
  match colors cfg with
  | Some (Js.Obj o) => o
  | _ => []
  end.

(** The elements of [content] ([[]] when it is not an array). *)
Definition content_items (cfg : Js.value) : list Js.value :=
  match content cfg with
  | Some (Js.Arr l) => l
  | _ => []
  end.

(** The elements of [content] that are strings, in order. *)
Fixpoint strings_of (l : list Js.value) : list string :=
  match l with
  | [] => []
  | Js.Str s :: rest => s :: strings_of rest
  | _ :: rest => strings_of rest
  end.

Definition content_patterns (cfg : Js.value) : list string :=
  strings_of (content_items cfg).

(** ** The text of the file *)

Definition dquote : string := String "034"%char EmptyString.
Definition newline : string := String "010"%char EmptyString.

(** The thirteen lines of [tailwind.config.js]; the last one is not
    terminated by a newline. *)
Definition source_lines : list string :=
  [ "/** @type {import('tailwindcss').Config} */";
    "module.exports = {";
    "  content: [" ++ dquote ++ "./templates/**/*.{html,js}" ++ dquote ++ "],";
    "  theme: {";
    "    extend: {";
    "      colors: {";
    "        primary: '#d4a574',";
    "        secondary: '#8b7355',";
    "      }";
    "    },";
    "  },";
    "  plugins: [],";
    "}" ].

Definition source_text : string := String.concat newline source_lines.

(** Number of newline characters of a text ([wc -l]). *)
Fixpoint newline_count (s : string) : nat :=
  match s with
  | EmptyString => 0
  | String c rest =>
      (if Ascii.eqb c "010" then 1 else 0) + newline_count rest
  end.

(** The lines of a text: maximal newline-free runs, each ended by a newline
    or by the end of the text; a newline at the very end does not open a
    further line. *)
Fixpoint lines_from (cur : string) (s : string) : list string :=
  match s with
  | EmptyString => match cur with EmptyString => [] | _ => [cur] end
  | String c rest =>
      if Ascii.eqb c "010" then cur :: lines_from EmptyString rest
      else lines_from (cur ++ String c EmptyString) rest
  end.

Definition lines (s : string) : list string := lines_from EmptyString s.

Definition line_count (s : string) : nat := length (lines s).

(** ** Reading the text

    A reader for the fragment of JavaScript the file is written in: block
    and line comments, identifiers, string literals in either quote without
    escapes, array and object literals with an optional trailing comma, and
    a module body of the form [module.exports = <literal>].  A hashbang
    line, which JavaScript allows at the very start of a text only, is not
    in the fragment: the reader rejects it. *)

Module Reader.

Inductive token : Type :=
| TIdent : string -> token
| TStr : string -> token
| TPunct : ascii -> token.

(** Scanner states. *)
Inductive mode : Type :=
| Code                       (* between tokens *)
| Ident (acc : string)       (* inside an identifier *)
| Quoted (q : ascii) (acc : string)   (* inside a string opened by [q] *)
| Slash                      (* after one [/] *)
| Block (star : bool)        (* inside a block comment; [star]: last was [*] *)
| Line.                      (* inside a line comment *)

Definition is_space (c : ascii) : bool :=
  Ascii.eqb c " " || Ascii.eqb c "009" || Ascii.eqb c "010" || Ascii.eqb c "013".

Definition is_ident_char (c : ascii) : bool :=
  let n := nat_of_ascii c in
  (Nat.leb 97 n && Nat.leb n 122) || (Nat.leb 65 n && Nat.leb n 90)
  || (Nat.leb 48 n && Nat.leb n 57) || Ascii.eqb c "_" || Ascii.eqb c "$".

Definition is_punct (c : ascii) : bool :=
  existsb (Ascii.eqb c) ["{"; "}"; "["; "]"; ":"; ","; "."; "="; ";"]%char.

Definition snoc (s : string) (c : ascii) : string := s ++ String c EmptyString.

(** What a character does between tokens. *)
Definition start (c : ascii) (out : list token) : option (mode * list token) :=
  if is_space c then Some (Code, out)
  else if Ascii.eqb c "/" then Some (Slash, out)
  else if Ascii.eqb c "'" || Ascii.eqb c "034" then Some (Quoted c EmptyString, out)
  else if is_ident_char c then Some (Ident (String c EmptyString), out)
  else if is_punct c then Some (Code, TPunct c :: out)
  else None.

(** One scanner step; [out] holds the tokens read so far, last first. *)
Definition step (m : mode) (c : ascii) (out : list token)
  : option (mode * list token) :=
  match m with
  | Code => start c out
  | Ident acc =>
      if is_ident_char c then Some (Ident (snoc acc c), out)
      else start c (TIdent acc :: out)
  | Quoted q acc =>
      if Ascii.eqb c q then Some (Code, TStr acc :: out)
      else if Ascii.eqb c "\" || Ascii.eqb c "010" then None
      else Some (Quoted q (snoc acc c), out)
  | Slash =>
      if Ascii.eqb c "*" then Some (Block false, out)
      else if Ascii.eqb c "/" then Some (Line, out)
      else None
  | Block star =>
      if star && Ascii.eqb c "/" then Some (Code, out)
      else Some (Block (Ascii.eqb c "*"), out)
  | Line =>
      if Ascii.eqb c "010" then Some (Code, out) else Some (Line, out)
  end.

Fixpoint scan (m : mode) (s : string) (out : list token) : option (list token) :=
  match s with
  | EmptyString =>
      match m with
      | Code | Line => Some (rev out)
      | Ident acc => Some (rev (TIdent acc :: out))
      | _ => None
      end
  | String c rest =>
      match step m c out with
      | Some (m', out') => scan m' rest out'
      | None => None
      end
  end.

Definition tokens (s : string) : option (list token) := scan Code s [].

(** Literals, by recursive descent; every call spends one unit of [fuel]
    before it looks at a token. *)
Fixpoint literal (fuel : nat) (ts : list token) : option (Js.value * list token) :=
  match fuel with
  | 0 => None
  | S fuel' =>
      match ts with
      | TStr s :: rest => Some (Js.Str s, rest)
      | TPunct "["%char :: rest => elements fuel' rest []
      | TPunct "{"%char :: rest => members fuel' rest []
      | _ => None
      end
  end

with elements (fuel : nat) (ts : list token) (acc : list Js.value)
  : option (Js.value * list token) :=
  match fuel with
  | 0 => None
  | S fuel' =>
      match ts with
      | TPunct "]"%char :: rest => Some (Js.Arr (rev acc), rest)
      | _ =>
          match literal fuel' ts with
          | Some (v, TPunct ","%char :: rest) => elements fuel' rest (v :: acc)
          | Some (v, TPunct "]"%char :: rest) => Some (Js.Arr (rev (v :: acc)), rest)
          | _ => None
          end
      end
  end

with members (fuel : nat) (ts : list token) (acc : list (string * Js.value))
  : option (Js.value * list token) :=
  match fuel with
  | 0 => None
  | S fuel' =>
      match ts with
      | TPunct "}"%char :: rest => Some (Js.Obj (Js.literal (rev acc)), rest)
      | (TIdent k | TStr k) :: TPunct ":"%char :: rest =>
          match literal fuel' rest with
          | Some (v, TPunct ","%char :: rest') => members fuel' rest' ((k, v) :: acc)
          | Some (v, TPunct "}"%char :: rest') =>
              Some (Js.Obj (Js.literal (rev ((k, v) :: acc))), rest')
          | _ => None
          end
      | _ => None
      end
  end.

(** The module body [module.exports = <literal>], with an optional [;]. *)
Definition module_exports (ts : list token) : option Js.value :=
  match ts with
  | TIdent "module" :: TPunct "."%char :: TIdent "exports" :: TPunct "="%char :: rest =>
      match literal (S (length rest)) rest with
      | Some (v, ([] | [TPunct ";"%char])) => Some v
      | _ => None
      end
  | _ => None
  end.

Definition read (s : string) : option Js.value :=
  match tokens s with
  | Some ts => module_exports ts
  | None => None
  end.

End Reader.

(** ** The shape the build tool expects

    The structural types of the interface
    [{ content: string[], theme: { extend: { colors: { [name: string]: string } } }, plugins: unknown[] }]
    and the check of a value against one of them.  A record type is exact:
    the object has each listed field and no other own property. *)

Module Shape.

Inductive ty : Type :=
| TString : ty
| TUnknown : ty
| TArray : ty -> ty
| TDict : ty -> ty
| TRecord : list (string * ty) -> ty.

Fixpoint has (t : ty) (v : Js.value) {struct t} : bool :=
  match t, v with
  | TString, Js.Str _ => true
  | TUnknown, _ => true
  | TArray t', Js.Arr l => forallb (has t') l
  | TDict t', Js.Obj o => forallb (fun kv => has t' (snd kv)) o
  | TRecord fs, Js.Obj o =>
      (fix fields (fs : list (string * ty)) : bool :=
         match fs with
         | [] => true
         | (k, t') :: fs' =>
             match Js.get k o with
             | Some v' => has t' v'
             | None => false
             end && fields fs'
         end) fs
      && forallb (fun kv => existsb (String.eqb (fst kv)) (map fst fs)) o
  | _, _ => false
  end.

Definition config : ty :=
  TRecord
    [ ("content", TArray TString);
      ("theme", TRecord [ ("extend", TRecord [ ("colors", TDict TString) ]) ]);
      ("plugins", TArray TUnknown) ].

End Shape.

(** ** Regular expressions

    Enough of the regular-expression language for the hex-colour grammar
    and for glob patterns: character classes, concatenation, alternation,
    iteration and bounded repetition, matched against the whole input (the
    [^] and [$] anchors) by derivatives. *)

Module Regex.

Inductive re : Type :=
| Void : re
| Eps : re
| Class : (ascii -> bool) -> re
| Cat : re -> re -> re
| Alt : re -> re -> re
| Star : re -> re.

Definition Chr (c : ascii) : re := Class (Ascii.eqb c).

(** The literal text [s]. *)
Fixpoint Lit (s : string) : re :=
  match s with
  | EmptyString => Eps
  | String c rest => Cat (Chr c) (Lit rest)
  end.

(** [r{n}]. *)
Fixpoint Times (n : nat) (r : re) : re :=
  match n with
  | 0 => Eps
  | S n' => Cat r (Times n' r)
  end.

(** [(r1|...|rn)]. *)
Fixpoint AnyOf (rs : list re) : re :=
  match rs with
  | [] => Void
  | r :: rest => Alt r (AnyOf rest)
  end.

(** The language of an expression. *)
Inductive matches : re -> list ascii -> Prop :=
| MEps : matches Eps []
| MClass : forall p c, p c = true -> matches (Class p) [c]
| MCat : forall a b s t, matches a s -> matches b t -> matches (Cat a b) (s ++ t)
| MAltL : forall a b s, matches a s -> matches (Alt a b) s
| MAltR : forall a b s, matches b s -> matches (Alt a b) s
| MStarNil : forall a, matches (Star a) []
| MStarApp : forall a s t,
    matches a s -> matches (Star a) t -> matches (Star a) (s ++ t).

Fixpoint nullable (r : re) : bool :=
  match r with
  | Void => false
  | Eps => true
  | Class _ => false
  | Cat a b => nullable a && nullable b
  | Alt a b => nullable a || nullable b
  | Star _ => true
  end.

Fixpoint deriv (c : ascii) (r : re) : re :=
  match r with
  | Void => Void
  | Eps => Void
  | Class p => if p c then Eps else Void
  | Cat a b =>
      if nullable a then Alt (Cat (deriv c a) b) (deriv c b)
      else Cat (deriv c a) b
  | Alt a b => Alt (deriv c a) (deriv c b)
  | Star a => Cat (deriv c a) (Star a)
  end.

Fixpoint run (r : re) (s : list ascii) : bool :=
  match s with
  | [] => nullable r
  | c :: rest => run (deriv c r) rest
  end.

(** [/^r$/.test(s)]. *)
Definition test (r : re) (s : string) : bool := run r (list_ascii_of_string s).

End Regex.

(** The grammar [^#([0-9a-fA-F]{3}|[0-9a-fA-F]{6})$] of the colour values. *)

Definition in_range (lo hi c : ascii) : bool :=
  Nat.leb (nat_of_ascii lo) (nat_of_ascii c)
  && Nat.leb (nat_of_ascii c) (nat_of_ascii hi).

(** [[0-9a-fA-F]]. *)
Definition is_hex_digit (c : ascii) : bool :=
  in_range "0" "9" c || in_range "a" "f" c || in_range "A" "F" c.

(** [[0-9a-f]]. *)
Definition is_lower_hex_digit (c : ascii) : bool :=
  in_range "0" "9" c || in_range "a" "f" c.

Definition hex_color_re : Regex.re :=
  Regex.Cat (Regex.Chr "#")
    (Regex.Alt (Regex.Times 3 (Regex.Class is_hex_digit))
               (Regex.Times 6 (Regex.Class is_hex_digit))).

Definition is_hex_color (s : string) : bool := Regex.test hex_color_re s.

(** [^#[0-9a-f]{6}$]: six digits, no upper-case letter. *)
Definition lower_hex6_re : Regex.re :=
  Regex.Cat (Regex.Chr "#") (Regex.Times 6 (Regex.Class is_lower_hex_digit)).

Definition is_lower_hex6 (s : string) : bool := Regex.test lower_hex6_re s.

(** ** Glob patterns and scanning *)

Module Glob.

Definition not_slash (c : ascii) : bool := negb (Ascii.eqb c "/").

(** [*]: any run of characters within one path segment. *)
Definition star : Regex.re := Regex.Star (Regex.Class not_slash).

(** [**/]: any number of whole directory segments. *)
Definition globstar : Regex.re :=
  Regex.Star (Regex.Cat star (Regex.Chr "/")).

(** Modelled from the spec: the matcher of glob patterns belongs to the
    external build tool and is not in the repository; the glossary calls a
    glob pattern a filesystem path-matching expression.  The reading used
    here is the conventional one for the constructs the configured pattern
    has: [**/] stands for any number of directories, [*] for any run of
    characters other than [/], [{a,b}] for one of the listed alternatives,
    every other character for itself.  [br] is [Some (alts, cur)] inside a
    brace group, with the finished alternatives last first and the current
    one. *)
Fixpoint compile (br : option (list string * string)) (pat : string) : Regex.re :=
  match pat with
  | EmptyString =>
      match br with
      | None => Regex.Eps
      | Some _ => Regex.Void
      end
  | String c rest =>
      match br with
      | Some (alts, cur) =>
          if Ascii.eqb c "}" then
            Regex.Cat (Regex.AnyOf (map Regex.Lit (rev (cur :: alts))))
                      (compile None rest)
          else if Ascii.eqb c "," then compile (Some (cur :: alts, EmptyString)) rest
          else compile (Some (alts, cur ++ String c EmptyString)) rest
      | None =>
          if Ascii.eqb c "{" then compile (Some ([], EmptyString)) rest
          else if Ascii.eqb c "*" then
            match rest with
            | String "*" (String "/" rest') =>
                Regex.Cat globstar (compile None rest')
            | _ => Regex.Cat star (compile None rest)
            end
          else Regex.Cat (Regex.Chr c) (compile None rest)
      end
  end.

(** Does [path] match the pattern [pat]? *)
Definition selects (pat path : string) : bool :=
  Regex.test (compile None pat) path.

End Glob.

Section Scanning.

(** The matcher of the build tool. *)
Variable selects : string -> string -> bool.

(** Modelled from the spec: scanning is the union over the patterns, a file
    is scanned when some pattern selects it. *)
Definition selected (patterns : list string) (file : string) : bool :=
  existsb (fun pat => selects pat file) patterns.

(** The files of a tree that are scanned, in the order of the tree. *)
Definition scan (patterns files : list string) : list string :=
  filter (selected patterns) files.

End Scanning.

(** ** Loading the module *)

(** The body run [n] times on the same [module] object. *)
Definition evaluate (n : nat) (module : Js.props) : Js.props :=
  Nat.iter n module_body module.

(** [module.exports] after [n] evaluations. *)
Definition exported (n : nat) (module : Js.props) : option Js.value :=
  Js.get "exports" (evaluate n module).

(** ** The code of the file, apart from its annotation *)

(** Lines 2-13: the file without the JSDoc annotation of line 1. *)
Definition code_text : string := String.concat newline (tl source_lines).

(** The property names for which creation order is enumeration order and a
    definition creates an own property: JavaScript lists array indices,
    which all start with a digit, before the other names, and [__proto__: v]
    in a literal sets the prototype instead.  A name that is not
    [__proto__] and does not start with a digit is neither. *)
Definition ordinary_name (k : string) : bool :=
  negb (String.eqb k "__proto__")
  && match k with
     | EmptyString => true
     | String c _ => negb (in_range "0" "9" c)
     end.

(** The identifiers among the tokens of a text, in order. *)
Fixpoint token_idents (ts : list Reader.token) : list string :=
  match ts with
  | [] => []
  | Reader.TIdent x :: rest => x :: token_idents rest
  | _ :: rest => token_idents rest
  end.

(** * Properties *)

(** ** The matcher decides the language *)

Section RegexFacts.

Import Regex.
Local Open Scope list_scope.

Lemma matches_nil_nullable r s :
  matches r s -> s = [] -> nullable r = true.
Proof.
  induction 1 as [ | p c Hp | a b s t Ha IHa Hb IHb | a b s Ha IHa
                 | a b s Hb IHb | a | a s t Ha IHa Hs IHs ];
    intros Hnil; simpl; auto.
  - discriminate.
  - apply app_eq_nil in Hnil as [-> ->]. rewrite IHa, IHb; auto.
  - rewrite IHa; auto.
  - rewrite IHb; auto using orb_true_r.
Qed.

Lemma nullable_matches r : nullable r = true <-> matches r [].
Proof.
  split.
  - induction r as [ | | p | a IHa b IHb | a IHa b IHb | a IHa ]; simpl; intros H;
      try discriminate.
    + constructor.
    + apply andb_true_iff in H as [Ha Hb].
      change (@nil ascii) with (@nil ascii ++ []). constructor; auto.
    + apply orb_true_iff in H as [Ha | Hb]; [apply MAltL | apply MAltR]; auto.
    + constructor.
  - intros H. eapply matches_nil_nullable; eauto.
Qed.

Lemma deriv_sound c r : forall s, matches (deriv c r) s -> matches r (c :: s).
Proof.
  induction r as [ | | p | a IHa b IHb | a IHa b IHb | a IHa ]; simpl; intros s H.
  - inversion H.
  - inversion H.
  - destruct (p c) eqn:Hp; inversion H; subst. now constructor.
  - assert (Hcat : forall u, matches (Cat (deriv c a) b) u -> matches (Cat a b) (c :: u)).
    { intros u Hu. inversion Hu; subst.
      change (c :: s0 ++ t) with ((c :: s0) ++ t). constructor; auto. }
    destruct (nullable a) eqn:Hn.
    + inversion H; subst; auto.
      change (c :: s) with ([] ++ c :: s). constructor; auto.
      now apply nullable_matches.
    + auto.
  - inversion H; subst; [apply MAltL | apply MAltR]; auto.
  - inversion H; subst.
    change (c :: s0 ++ t) with ((c :: s0) ++ t). constructor; auto.
Qed.

Lemma deriv_complete c r u :
  matches r u -> forall s, u = c :: s -> matches (deriv c r) s.
Proof.
  induction 1 as [ | p c' Hp | a b s t Ha IHa Hb IHb | a b s Ha IHa
                 | a b s Hb IHb | a | a s t Ha IHa Hs IHs ];
    intros s' E; simpl.
  - discriminate.
  - injection E as -> <-. rewrite Hp. constructor.
  - destruct s as [ | c0 s0 ]; simpl in E.
    + subst t. apply matches_nil_nullable in Ha as ->; auto.
      apply MAltR. auto.
    + injection E as -> <-.
      destruct (nullable a); [apply MAltL | ]; constructor; auto.
  - apply MAltL; auto.
  - apply MAltR; auto.
  - discriminate.
  - destruct s as [ | c0 s0 ]; simpl in E.
    + auto.
    + injection E as -> <-. constructor; auto.
Qed.

Lemma deriv_matches c r s : matches (deriv c r) s <-> matches r (c :: s).
Proof.
  split; [apply deriv_sound | intros H; eapply deriv_complete; eauto].
Qed.

Lemma run_matches s : forall r, run r s = true <-> matches r s.
Proof.
  induction s as [ | c s IH ]; intros r; simpl.
  - apply nullable_matches.
  - rewrite IH. apply deriv_matches.
Qed.

End RegexFacts.

(** ** The languages of the expressions in use *)

Section Languages.

Import Regex.
Local Open Scope list_scope.

Lemma matches_void s : matches Void s <-> False.
Proof. split; [intros H; inversion H | tauto]. Qed.

Lemma matches_eps s : matches Eps s <-> s = [].
Proof. split; [intros H; now inversion H | intros ->; constructor]. Qed.

Lemma matches_class p s :
  matches (Class p) s <-> exists c, s = [c] /\ p c = true.
Proof.
  split.
  - intros H; inversion H; subst; eauto.
  - intros (c & -> & Hp); now constructor.
Qed.

Lemma matches_cat a b s :
  matches (Cat a b) s <->
  exists s1 s2, s = s1 ++ s2 /\ matches a s1 /\ matches b s2.
Proof.
  split.
  - intros H; inversion H; subst; eauto.
  - intros (s1 & s2 & -> & Ha & Hb); now constructor.
Qed.

Lemma matches_alt a b s : matches (Alt a b) s <-> matches a s \/ matches b s.
Proof.
  split.
  - intros H; inversion H; subst; auto.
  - intros [H | H]; [apply MAltL | apply MAltR]; auto.
Qed.

(** A character class followed by [r]: one character of the class, then a
    word of [r]. *)
Lemma matches_class_cat p r s :
  matches (Cat (Class p) r) s <->
  exists c s', s = c :: s' /\ p c = true /\ matches r s'.
Proof.
  rewrite matches_cat. split.
  - intros (s1 & s2 & -> & H1 & H2).
    apply matches_class in H1 as (c & -> & Hp). simpl; eauto.
  - intros (c & s' & -> & Hp & Hr). exists [c], s'. repeat split; auto.
    apply matches_class; eauto.
Qed.

Lemma matches_chr_cat c r s :
  matches (Cat (Chr c) r) s <-> exists s', s = c :: s' /\ matches r s'.
Proof.
  unfold Chr. rewrite matches_class_cat. split.
  - intros (c' & s' & -> & E & Hr). apply Ascii.eqb_eq in E as <-. eauto.
  - intros (s' & -> & Hr). exists c, s'. repeat split; auto. apply Ascii.eqb_refl.
Qed.

(** [p{n}]: exactly [n] characters, all of the class. *)
Lemma matches_times_class p n :
  forall s, matches (Times n (Class p)) s <->
            length s = n /\ forallb p s = true.
Proof.
  induction n as [ | n IH ]; intros s; simpl.
  - rewrite matches_eps. split.
    + intros ->; auto.
    + intros [H _]. now apply length_zero_iff_nil.
  - rewrite matches_class_cat. split.
    + intros (c & s' & -> & Hp & Hr). apply IH in Hr as [Hl Hf].
      simpl. rewrite Hp, Hl, Hf. auto.
    + intros [Hl Hf]. destruct s as [ | c s' ]; simpl in *; [discriminate | ].
      apply andb_true_iff in Hf as [Hp Hf]. exists c, s'.
      repeat split; auto. apply IH. split; [lia | auto].
Qed.

Lemma matches_lit t s : matches (Lit t) s <-> s = list_ascii_of_string t.
Proof.
  revert s; induction t as [ | c t IH ]; intros s; simpl.
  - apply matches_eps.
  - rewrite matches_chr_cat. split.
    + intros (s' & -> & H). apply IH in H as ->. reflexivity.
    + intros ->. eexists; split; [reflexivity | now apply IH].
Qed.

Lemma matches_anyof rs s :
  matches (AnyOf rs) s <-> exists r, In r rs /\ matches r s.
Proof.
  induction rs as [ | r rs IH ]; simpl.
  - rewrite matches_void. split; [tauto | intros (r & [] & _)].
  - rewrite matches_alt, IH. split.
    + intros [H | (r' & Hin & H)]; eauto.
    + intros (r' & [<- | Hin] & H); eauto.
Qed.

End Languages.

(** Strings and their character lists. *)

Lemma string_of_list_ascii_app (a b : list ascii) :
  string_of_list_ascii (a ++ b)%list
  = string_of_list_ascii a ++ string_of_list_ascii b.
Proof. induction a as [ | c a IH ]; simpl; [ | rewrite IH]; reflexivity. Qed.

Lemma string_length_list (s : string) :
  String.length s = length (list_ascii_of_string s).
Proof. induction s as [ | c s IH ]; simpl; auto. Qed.

(** The colour grammar, spelled out: ['#'] and then exactly three or exactly
    six hexadecimal digits. *)
Lemma is_hex_color_spec (s : string) :
  is_hex_color s = true <->
  exists ds, s = String "#" ds
             /\ (String.length ds = 3 \/ String.length ds = 6)
             /\ forallb is_hex_digit (list_ascii_of_string ds) = true.
Proof.
  unfold is_hex_color, Regex.test, hex_color_re.
  rewrite run_matches, matches_chr_cat. split.
  - intros (s' & E & H). apply matches_alt in H.
    rewrite !matches_times_class in H.
    destruct s as [ | c ds ]; simpl in E; [discriminate | ].
    injection E as -> <-. exists ds. rewrite string_length_list. intuition.
  - intros (ds & -> & Hl & Hf). exists (list_ascii_of_string ds).
    split; [reflexivity | ].
    rewrite matches_alt, !matches_times_class, <- string_length_list. intuition.
Qed.

(** The stricter grammar of the configured values. *)
Lemma is_lower_hex6_spec (s : string) :
  is_lower_hex6 s = true <->
  exists ds, s = String "#" ds
             /\ String.length ds = 6
             /\ forallb is_lower_hex_digit (list_ascii_of_string ds) = true.
Proof.
  unfold is_lower_hex6, Regex.test, lower_hex6_re.
  rewrite run_matches, matches_chr_cat. split.
  - intros (s' & E & H). apply matches_times_class in H.
    destruct s as [ | c ds ]; simpl in E; [discriminate | ].
    injection E as -> <-. exists ds. rewrite string_length_list. intuition.
  - intros (ds & -> & Hl & Hf). exists (list_ascii_of_string ds).
    split; [reflexivity | ].
    rewrite matches_times_class, <- string_length_list. intuition.
Qed.

Lemma lower_hex_digit_is_hex_digit c :
  is_lower_hex_digit c = true -> is_hex_digit c = true.
Proof. unfold is_lower_hex_digit, is_hex_digit. intros ->. reflexivity. Qed.

Lemma lower_hex6_is_hex_color s :
  is_lower_hex6 s = true -> is_hex_color s = true.
Proof.
  rewrite is_lower_hex6_spec, is_hex_color_spec.
  intros (ds & -> & Hl & Hf). exists ds. repeat split; auto.
  rewrite forallb_forall in *. auto using lower_hex_digit_is_hex_digit.
Qed.

(** ** Objects *)

Lemma get_set k k' v (o : Js.props) :
  Js.get k (Js.set k' v o) = if String.eqb k k' then Some v else Js.get k o.
Proof.
  induction o as [ | [k0 v0] o IH ]; simpl.
  - reflexivity.
  - destruct (String.eqb k' k0) eqn:E0; simpl.
    + apply String.eqb_eq in E0 as ->.
      destruct (String.eqb k k0); reflexivity.
    + rewrite IH. destruct (String.eqb k k0) eqn:E1; auto.
      apply String.eqb_eq in E1 as ->.
      rewrite String.eqb_sym, E0. reflexivity.
Qed.

Lemma set_set k v v' (o : Js.props) :
  Js.set k v (Js.set k v' o) = Js.set k v o.
Proof.
  induction o as [ | [k0 v0] o IH ]; simpl.
  - rewrite String.eqb_refl. reflexivity.
  - destruct (String.eqb k k0) eqn:E0; simpl; rewrite E0; [ | rewrite IH ];
      reflexivity.
Qed.

(** An assignment adds at most one name, at the end, and only a new one. *)
Lemma keys_set k v (o : Js.props) :
  Js.keys (Js.set k v o)
  = if existsb (String.eqb k) (Js.keys o) then Js.keys o
    else (Js.keys o ++ [k])%list.
Proof.
  induction o as [ | [k0 v0] o IH ]; simpl.
  - reflexivity.
  - destruct (String.eqb k k0) eqn:E0; simpl.
    + reflexivity.
    + fold (Js.keys o). rewrite IH.
      destruct (existsb (String.eqb k) (Js.keys o)); reflexivity.
Qed.

Lemma keys_set_NoDup k v (o : Js.props) :
  NoDup (Js.keys o) -> NoDup (Js.keys (Js.set k v o)).
Proof.
  intros H. rewrite keys_set.
  destruct (existsb (String.eqb k) (Js.keys o)) eqn:E; auto.
  apply NoDup_app; auto.
  - repeat constructor; simpl; tauto.
  - intros x Hx [<- | []].
    assert (existsb (String.eqb k) (Js.keys o) = true); [ | congruence ].
    apply existsb_exists. exists k. split; auto. apply String.eqb_refl.
Qed.

(** The own property names of an object built by a literal are pairwise
    distinct, whatever the literal repeats. *)
Lemma keys_literal_NoDup (defs : list (string * Js.value)) :
  NoDup (Js.keys (Js.literal defs)).
Proof.
  unfold Js.literal.
  assert (G : forall o : Js.props, NoDup (Js.keys o) ->
    NoDup (Js.keys (fold_left (fun o kv => Js.set (fst kv) (snd kv) o) defs o))).
  { induction defs as [ | kv defs IH ]; simpl; intros o Ho; auto.
    apply IH, keys_set_NoDup, Ho. }
  apply G. constructor.
Qed.

(** ** The module body *)

Lemma evaluate_succ n module :
  evaluate (S n) module = module_body (evaluate n module).
Proof. reflexivity. Qed.

Lemma module_body_idempotent module :
  module_body (module_body module) = module_body module.
Proof. apply set_set. Qed.

Lemma get_evaluate k n module :
  Js.get k (evaluate n module)
  = if String.eqb k "exports" then
      match n with
      | 0 => Js.get k module
      | S _ => Some tailwind_config
      end
    else Js.get k module.
Proof.
  induction n as [ | n IH ].
  - simpl. destruct (String.eqb k "exports"); reflexivity.
  - rewrite evaluate_succ. unfold module_body. rewrite get_set.
    destruct (String.eqb k "exports"); auto.
Qed.

Lemma exported_config_eq : exported_config = tailwind_config.
Proof. reflexivity. Qed.

(** ** Scanning *)

(** The union does not see the order of the patterns. *)
Lemma selected_permutation (selects : string -> string -> bool)
      (ps qs : list string) (file : string) :
  Permutation ps qs -> selected selects ps file = selected selects qs file.
Proof.
  unfold selected.
  induction 1 as [ | p ps qs _ IH | p q ps | ps qs rs _ IH1 _ IH2 ]; simpl.
  - reflexivity.
  - now rewrite IH.
  - destruct (selects p file), (selects q file); reflexivity.
  - congruence.
Qed.

Lemma scan_permutation (selects : string -> string -> bool)
      (ps qs files : list string) :
  Permutation ps qs -> scan selects ps files = scan selects qs files.
Proof.
  intros H. unfold scan. apply filter_ext.
  intros file. now apply selected_permutation.
Qed.

(** What the configured pattern selects lies under [./templates/] and ends
    in [.html] or [.js]. *)
Lemma content_pattern_selects (path : string) :
  Glob.selects "./templates/**/*.{html,js}" path = true ->
  exists mid,
    path = "./templates/" ++ mid ++ ".html"
    \/ path = "./templates/" ++ mid ++ ".js".
Proof.
  unfold Glob.selects, Regex.test. rewrite run_matches.
  intros H.
  assert (E : path = string_of_list_ascii (list_ascii_of_string path))
    by (symmetry; apply string_of_list_ascii_of_string).
  revert E H. generalize (list_ascii_of_string path) as l. intros l -> H.
  cbn [Glob.compile Ascii.eqb Bool.eqb rev map app] in H.
  repeat (apply matches_chr_cat in H as (? & -> & H)).
  apply matches_cat in H as (dirs & s1 & -> & _ & H).
  apply matches_cat in H as (name & s2 & -> & _ & H).
  apply matches_chr_cat in H as (ext & -> & H).
  apply matches_cat in H as (e & s3 & -> & He & H).
  apply matches_eps in H as ->.
  exists (string_of_list_ascii (dirs ++ name)).
  apply matches_anyof in He as (r & Hr & He).
  destruct Hr as [<- | [<- | []]];
    apply matches_lit in He as ->; [left | right];
    simpl; rewrite app_assoc, string_of_list_ascii_app; reflexivity.
Qed.

(** ** The definitions at work *)

Example reader_rejects_open_string :
  Reader.read "module.exports = { content: ['a }" = None.
Proof. reflexivity. Qed.

Example reader_rejects_other_statement :
  Reader.read "exports.content = []" = None.
Proof. reflexivity. Qed.

Example reader_later_definition_wins :
  Reader.read "module.exports = { a: 'x', b: [], a: 'y', }"
  = Some (Js.Obj [("a", Js.Str "y"); ("b", Js.Arr [])]).
Proof. reflexivity. Qed.

Example shape_rejects_missing_fields :
  Shape.has Shape.config (Js.Obj []) = false.
Proof. reflexivity. Qed.

Example shape_rejects_extra_field :
  Shape.has Shape.config
    (Js.Obj (Js.literal (config_defs ++ [("darkMode", Js.Str "class")])))
  = false.
Proof. reflexivity. Qed.

Example shape_rejects_string_plugins :
  Shape.has Shape.config
    (Js.Obj (Js.literal (config_defs ++ [("plugins", Js.Str "forms")])))
  = false.
Proof. reflexivity. Qed.

Example hex_grammar_samples :
  map is_hex_color
      ["#d4a574"; "#8B7355"; "#fff"; "#ffff"; "d4a574"; "#d4a57g"; "#"; "#d4a5741"]
  = [true; true; true; false; false; false; false; false].
Proof. reflexivity. Qed.

Example glob_samples :
  map (Glob.selects "./templates/**/*.{html,js}")
      ["./templates/index.html"; "./templates/a/b/app.js"; "./static/x.html";
       "./templates/x.css"; "templates/a.js"; "./templates/a.js/"]
  = [true; true; false; false; false; false].
Proof. reflexivity. Qed.

(** * The claims about the exported record *)

(** C1: every value under [theme.extend.colors] of the exported record is a
    string that matches [^#([0-9a-fA-F]{3}|[0-9a-fA-F]{6})$], that is, the
    character ['#'] followed by exactly three or exactly six hexadecimal
    digits. *)
Theorem colors_values_match_hex_grammar (v : Js.value) :
  In v (Js.values (color_entries exported_config)) ->
  exists s,
    v = Js.Str s
    /\ is_hex_color s = true
    /\ exists ds,
         s = String "#" ds
         /\ (String.length ds = 3 \/ String.length ds = 6)
         /\ forallb is_hex_digit (list_ascii_of_string ds) = true.
Proof.
  intros H.
  assert (G : forall s, is_hex_color s = true ->
                        v = Js.Str s ->
                        exists s', v = Js.Str s' /\ is_hex_color s' = true
                          /\ exists ds, s' = String "#" ds
                               /\ (String.length ds = 3 \/ String.length ds = 6)
                               /\ forallb is_hex_digit (list_ascii_of_string ds) = true).
  { intros s Hs ->. exists s. repeat split; auto. now apply is_hex_color_spec. }
  change (color_entries exported_config)
    with [("primary", Js.Str "#d4a574"); ("secondary", Js.Str "#8b7355")] in H.
  destruct H as [<- | [<- | []]];
    [apply (G "#d4a574") | apply (G "#8b7355")]; reflexivity.
Qed.

Lemma colors_values_match_hex_grammar_witness :
  In (Js.Str "#8b7355") (Js.values (color_entries exported_config))
  /\ exists s,
       Js.Str "#8b7355" = Js.Str s
       /\ is_hex_color s = true
       /\ exists ds,
            s = String "#" ds
            /\ (String.length ds = 3 \/ String.length ds = 6)
            /\ forallb is_hex_digit (list_ascii_of_string ds) = true.
Proof.
  split.
  - simpl. right. left. reflexivity.
  - apply (@colors_values_match_hex_grammar (Js.Str "#8b7355")).
    simpl. right. left. reflexivity.
Defined.

(** C2: the text of the file reads as a literal whose value is the exported
    record, and the record has exactly the interface shape
    [{ content: string[], theme: { extend: { colors: { [name: string]: string } } }, plugins: unknown[] }]:
    its own properties are [content], [theme] and [plugins]; [content] is an
    array of strings, [theme.extend.colors] an object whose values are
    strings, [plugins] an array. *)
Theorem config_parses_with_interface_shape :
  Reader.read source_text = Some exported_config
  /\ Shape.has Shape.config exported_config = true
  /\ (exists o, exported_config = Js.Obj o
                /\ Js.keys o = ["content"; "theme"; "plugins"])
  /\ (exists l, content exported_config = Some (Js.Arr l)
                /\ forallb Js.is_string l = true)
  /\ (exists o, colors exported_config = Some (Js.Obj o)
                /\ forallb Js.is_string (Js.values o) = true)
  /\ (exists l, plugins exported_config = Some (Js.Arr l)).
Proof.
  split; [vm_compute; reflexivity | ].
  split; [vm_compute; reflexivity | ].
  split; [eexists; split; reflexivity | ].
  split; [eexists; split; reflexivity | ].
  split; [eexists; split; reflexivity | ].
  eexists; reflexivity.
Qed.

(** C3: [content] of the exported record has at least one element, and each
    of its elements is a non-empty string. *)
Theorem content_has_nonempty_patterns :
  exists l,
    content exported_config = Some (Js.Arr l)
    /\ 1 <= length l
    /\ Forall (fun v => exists s, v = Js.Str s /\ s <> EmptyString
                                  /\ 1 <= String.length s) l.
Proof.
  eexists. split; [reflexivity | ]. split; [simpl; lia | ].
  repeat constructor. eexists. split; [reflexivity | ].
  split; [discriminate | simpl; lia].
Qed.

(** C4: [plugins] of the exported record is an array, and it has no
    element. *)
Theorem plugins_is_empty_array :
  exists l,
    plugins exported_config = Some (Js.Arr l)
    /\ Js.is_array (Js.Arr l) = true
    /\ length l = 0.
Proof. exists []. repeat split. Qed.

(** C5: no colour name occurs more than once: the own property names of
    [theme.extend.colors] are pairwise distinct, and so are the names the
    literal writes, so that no definition of the literal overwrites
    another. *)
Theorem color_names_unique :
  NoDup (Js.keys (color_entries exported_config))
  /\ NoDup (Js.keys colors_defs)
  /\ color_entries exported_config = colors_defs
  /\ forall name,
       count_occ string_dec (Js.keys (color_entries exported_config)) name <= 1.
Proof.
  assert (N : NoDup (Js.keys (color_entries exported_config))).
  { change (color_entries exported_config) with (Js.literal colors_defs).
    apply keys_literal_NoDup. }
  split; [exact N | ].
  split; [exact N | ].
  split; [reflexivity | ].
  intros name. revert name. apply NoDup_count_occ. exact N.
Qed.

(** C6, as the file has it: the text of the configuration file consists of
    thirteen lines, separated by twelve newline characters; the last line
    is not terminated. *)
Theorem source_has_13_lines :
  lines source_text = source_lines
  /\ line_count source_text = 13
  /\ newline_count source_text = 12.
Proof. repeat split; vm_compute; reflexivity. Qed.

(** C6, as stated, fails: the file is not fourteen lines long, neither by
    its lines nor by its newline characters. *)
Lemma source_not_14_lines :
  ~ (line_count source_text = 14) /\ ~ (newline_count source_text = 14).
Proof. split; vm_compute; discriminate. Qed.

(** C7: the order of the patterns does not matter, because scanning is a
    union: whatever the matcher of the build tool, the pattern list and the
    tree, scanning with any permutation of the patterns selects the same
    files, in the same order of the tree, and every single file is selected
    by the one list exactly when it is by the other.  This holds of the
    configured [content] and of any list it may grow into. *)
Theorem content_order_irrelevant
        (selects : string -> string -> bool)
        (patterns patterns' files : list string) :
  Permutation patterns patterns' ->
  scan selects patterns' files = scan selects patterns files
  /\ forall file,
       selected selects patterns' file = selected selects patterns file.
Proof.
  intros H. split.
  - symmetry. now apply scan_permutation.
  - intros file. symmetry. now apply selected_permutation.
Qed.

Lemma content_order_irrelevant_witness :
  Permutation
    (content_patterns exported_config ++ ["./static/**/*.js"; "./src/*.html"])
    ["./src/*.html"; "./static/**/*.js"; "./templates/**/*.{html,js}"]
  /\ (scan Glob.selects
           ["./src/*.html"; "./static/**/*.js"; "./templates/**/*.{html,js}"]
           ["./templates/index.html"; "./static/js/app.js"; "./README.md";
            "./src/page.html"]
      = scan Glob.selects
           (content_patterns exported_config
            ++ ["./static/**/*.js"; "./src/*.html"])
           ["./templates/index.html"; "./static/js/app.js"; "./README.md";
            "./src/page.html"]
      /\ forall file,
           selected Glob.selects
             ["./src/*.html"; "./static/**/*.js"; "./templates/**/*.{html,js}"]
             file
           = selected Glob.selects
               (content_patterns exported_config
                ++ ["./static/**/*.js"; "./src/*.html"])
               file).
Proof.
  split.
  - exact (Permutation_rev
             ["./templates/**/*.{html,js}"; "./static/**/*.js"; "./src/*.html"]).
  - apply (@content_order_irrelevant Glob.selects
             (content_patterns exported_config
              ++ ["./static/**/*.js"; "./src/*.html"])%list
             ["./src/*.html"; "./static/**/*.js"; "./templates/**/*.{html,js}"]
             ["./templates/index.html"; "./static/js/app.js"; "./README.md";
              "./src/page.html"]).
    exact (Permutation_rev
             ["./templates/**/*.{html,js}"; "./static/**/*.js"; "./src/*.html"]).
Defined.

(** C8: the exported record is a constant: after any positive number of
    evaluations of the module body, from any [module] object, [module.exports]
    is the same record; two loads agree; running the body again changes
    nothing; the body writes no property of [module] but [exports], and every
    field of the record reads the same after further evaluations. *)
Theorem exported_record_is_constant :
  (forall n module, exported (S n) module = Some exported_config)
  /\ (forall n n' module module',
        exported (S n) module = exported (S n') module')
  /\ (forall module, module_body (module_body module) = module_body module)
  /\ (forall n module k,
        Js.get k (evaluate n module)
        = if String.eqb k "exports" then
            match n with
            | 0 => Js.get k module
            | S _ => Some exported_config
            end
          else Js.get k module)
  /\ (forall n module k,
        match exported (S n) module with
        | Some cfg => Js.field k cfg
        | None => None
        end = Js.field k exported_config)
  /\ require_config = Some exported_config.
Proof.
  assert (E : forall n module, exported (S n) module = Some exported_config).
  { intros n module. unfold exported. rewrite get_evaluate. reflexivity. }
  split; [exact E | ].
  split; [intros; now rewrite !E | ].
  split; [apply module_body_idempotent | ].
  split; [intros; apply get_evaluate | ].
  split; [intros; now rewrite E | reflexivity].
Qed.

(** C9: [content] of the exported record is exactly the one-element array
    of the pattern [./templates/**/*.{html,js}], and scanning with it keeps
    only files under [./templates/] whose name ends in [.html] or [.js]. *)
Theorem content_is_templates_glob :
  content exported_config
  = Some (Js.Arr [Js.Str "./templates/**/*.{html,js}"])
  /\ content_patterns exported_config = ["./templates/**/*.{html,js}"]
  /\ forall files file,
       In file (scan Glob.selects (content_patterns exported_config) files) ->
       In file files
       /\ exists mid,
            file = "./templates/" ++ mid ++ ".html"
            \/ file = "./templates/" ++ mid ++ ".js".
Proof.
  split; [reflexivity | ]. split; [reflexivity | ].
  intros files file H. unfold scan in H. apply filter_In in H as [Hin Hsel].
  split; [exact Hin | ].
  change (content_patterns exported_config)
    with ["./templates/**/*.{html,js}"] in Hsel.
  unfold selected in Hsel. cbn [existsb] in Hsel.
  rewrite orb_false_r in Hsel. now apply content_pattern_selects.
Qed.

Lemma content_is_templates_glob_witness :
  In "./templates/pages/index.html"
     (scan Glob.selects (content_patterns exported_config)
           ["./static/site.js"; "./templates/pages/index.html";
            "./templates/base.css"])
  /\ In "./templates/pages/index.html"
        ["./static/site.js"; "./templates/pages/index.html";
         "./templates/base.css"]
  /\ exists mid,
       "./templates/pages/index.html" = "./templates/" ++ mid ++ ".html"
       \/ "./templates/pages/index.html" = "./templates/" ++ mid ++ ".js".
Proof.
  split.
  - vm_compute. left. reflexivity.
  - apply (proj2 (proj2 content_is_templates_glob)).
    vm_compute. left. reflexivity.
Defined.

(** C10: [theme.extend.colors] of the exported record has exactly the two
    entries [primary: '#d4a574'] and [secondary: '#8b7355'], in this order;
    both values are ['#'] followed by six digits of [0-9a-f], a grammar
    strictly inside the three-or-six-digit, either-case one. *)
Theorem colors_exactly_primary_secondary :
  colors exported_config
  = Some (Js.Obj [("primary", Js.Str "#d4a574"); ("secondary", Js.Str "#8b7355")])
  /\ length (color_entries exported_config) = 2
  /\ Js.get "primary" (color_entries exported_config) = Some (Js.Str "#d4a574")
  /\ Js.get "secondary" (color_entries exported_config) = Some (Js.Str "#8b7355")
  /\ is_lower_hex6 "#d4a574" = true
  /\ is_lower_hex6 "#8b7355" = true
  /\ (forall s, implb (is_lower_hex6 s) (is_hex_color s) = true)
  /\ is_hex_color "#FFF" = true
  /\ is_lower_hex6 "#FFF" = false.
Proof.
  repeat (split; [reflexivity | ]).
  split; [ | split; reflexivity ].
  intros s. destruct (is_lower_hex6 s) eqn:E; simpl; [ | reflexivity ].
  now apply lower_hex6_is_hex_color.
Qed.

(** * Further properties of the module *)

(** ** Object literals with distinct names *)

Lemma set_fresh k v (o : Js.props) :
  ~ In k (Js.keys o) -> Js.set k v o = (o ++ [(k, v)])%list.
Proof.
  induction o as [ | [k0 v0] o IH ]; simpl; intros H.
  - reflexivity.
  - destruct (String.eqb k k0) eqn:E.
    + apply String.eqb_eq in E as ->. exfalso. apply H. now left.
    + rewrite IH; [reflexivity | ]. intros Hin. apply H. now right.
Qed.

Lemma fold_set_distinct (defs : list (string * Js.value)) :
  forall o : Js.props,
    NoDup (Js.keys o ++ Js.keys defs)%list ->
    fold_left (fun o kv => Js.set (fst kv) (snd kv) o) defs o
    = (o ++ defs)%list.
Proof.
  induction defs as [ | [k v] defs IH ]; simpl; intros o H.
  - now rewrite app_nil_r.
  - rewrite set_fresh.
    + rewrite IH.
      * now rewrite <- app_assoc.
      * unfold Js.keys in *. rewrite map_app, <- app_assoc. exact H.
    + apply NoDup_remove_2 in H. intros Hin. apply H.
      apply in_or_app. now left.
Qed.

(** X4: an object literal whose property names are pairwise distinct and
    ordinary (no array index, no [__proto__]) evaluates to exactly its
    definitions, in the order they are written: no definition is overwritten
    or moved, and [Object.keys] lists the names as written. *)
Theorem literal_of_distinct_names (defs : list (string * Js.value)) :
  NoDup (Js.keys defs) ->
  forallb ordinary_name (Js.keys defs) = true ->
  Js.literal defs = defs
  /\ Js.keys (Js.literal defs) = Js.keys defs
  /\ forall k, Js.get k (Js.literal defs) = Js.get k defs.
Proof.
  intros H _.
  assert (E : Js.literal defs = defs).
  { unfold Js.literal. rewrite fold_set_distinct; [reflexivity | exact H]. }
  rewrite E. auto.
Qed.

Lemma literal_of_distinct_names_witness :
  NoDup (Js.keys config_defs)
  /\ forallb ordinary_name (Js.keys config_defs) = true
  /\ (Js.literal config_defs = config_defs
      /\ Js.keys (Js.literal config_defs) = Js.keys config_defs
      /\ forall k, Js.get k (Js.literal config_defs) = Js.get k config_defs).
Proof.
  assert (N : NoDup (Js.keys config_defs)).
  { simpl. repeat constructor; simpl; intuition discriminate. }
  split; [exact N | ].
  split; [reflexivity | ].
  apply (@literal_of_distinct_names config_defs); [exact N | reflexivity].
Defined.

(** X1: the JSDoc annotation of line 1 is a comment and nothing else: put in
    front of any text of the fragment the reader accepts, it leaves the
    tokens of that text as they are; the file without its first line has the
    same tokens and reads to the same record. *)
Theorem annotation_line_is_inert :
  (forall rest ts,
     Reader.tokens rest = Some ts ->
     Reader.tokens (hd EmptyString source_lines ++ newline ++ rest) = Some ts)
  /\ Reader.tokens (hd EmptyString source_lines) = Some []
  /\ Reader.tokens code_text = Reader.tokens source_text
  /\ Reader.read code_text = Some exported_config.
Proof.
  split; [intros rest ts H; rewrite <- H; reflexivity | ].
  repeat split; vm_compute; reflexivity.
Qed.

Lemma annotation_line_is_inert_witness :
  Reader.tokens "module.exports = { plugins: [] }"
  = Some [Reader.TIdent "module"; Reader.TPunct "."; Reader.TIdent "exports";
          Reader.TPunct "="; Reader.TPunct "{"; Reader.TIdent "plugins";
          Reader.TPunct ":"; Reader.TPunct "["; Reader.TPunct "]";
          Reader.TPunct "}"]
  /\ Reader.tokens (hd EmptyString source_lines ++ newline
                    ++ "module.exports = { plugins: [] }")
     = Some [Reader.TIdent "module"; Reader.TPunct "."; Reader.TIdent "exports";
             Reader.TPunct "="; Reader.TPunct "{"; Reader.TIdent "plugins";
             Reader.TPunct ":"; Reader.TPunct "["; Reader.TPunct "]";
             Reader.TPunct "}"].
Proof.
  split.
  - reflexivity.
  - apply (proj1 annotation_line_is_inert). reflexivity.
Defined.

(** X2: the code of the module is one statement, the assignment
    [module.exports = <literal>]: the literal uses up every token after the
    [=], and the only identifiers are [module], [exports] and the seven
    property names.  The word [import] occurs in the text, at offset 11, but
    only inside the comment of line 1; the code has neither [import] nor
    [require]. *)
Theorem module_is_single_assignment :
  exists rest,
    Reader.tokens source_text
    = Some (Reader.TIdent "module" :: Reader.TPunct "." ::
            Reader.TIdent "exports" :: Reader.TPunct "=" :: rest)
    /\ Reader.literal (S (length rest)) rest = Some (exported_config, [])
    /\ token_idents rest
       = ["content"; "theme"; "extend"; "colors"; "primary"; "secondary";
          "plugins"]
    /\ ~ In "import" (token_idents rest)
    /\ ~ In "require" (token_idents rest)
    /\ String.index 0 "import" source_text = Some 11
    /\ String.index 0 "import" code_text = None.
Proof.
  eexists. split; [vm_compute; reflexivity | ].
  split; [vm_compute; reflexivity | ].
  split; [reflexivity | ].
  split; [simpl; intuition discriminate | ].
  split; [simpl; intuition discriminate | ].
  split; vm_compute; reflexivity.
Qed.

(** X3: the record adds to the palette of the build tool and does not
    replace it: [theme] has the single own property [extend], [extend] the
    single own property [colors], and there is no [theme.colors]. *)
Theorem theme_only_extends :
  (exists t, Js.path ["theme"] exported_config = Some (Js.Obj t)
             /\ Js.keys t = ["extend"])
  /\ (exists e, Js.path ["theme"; "extend"] exported_config = Some (Js.Obj e)
                /\ Js.keys e = ["colors"])
  /\ Js.path ["theme"; "colors"] exported_config = None
  /\ Js.path ["colors"] exported_config = None.
Proof.
  split; [eexists; split; reflexivity | ].
  split; [eexists; split; reflexivity | ].
  split; reflexivity.
Qed.

(** X5: the assignment [module.exports = ...] keeps every own property
    name of [module] in its place; when [module] has no [exports] yet, the
    name is added at the end, and the exported record is there either way. *)
Theorem module_body_keys (module : Js.props) :
  Js.keys (module_body module)
  = (if existsb (String.eqb "exports") (Js.keys module) then Js.keys module
     else Js.keys module ++ ["exports"])%list
  /\ Js.get "exports" (module_body module) = Some exported_config
  /\ length module <= length (module_body module) <= S (length module).
Proof.
  assert (K := keys_set "exports" tailwind_config module).
  split; [exact K | ].
  split.
  - unfold module_body. rewrite get_set. reflexivity.
  - assert (L : forall o : Js.props, length (Js.keys o) = length o)
      by (intros o; apply length_map).
    rewrite <- !L. fold (module_body module) in K. rewrite K.
    destruct (existsb (String.eqb "exports") (Js.keys module)).
    + lia.
    + rewrite length_app. simpl. lia.
Qed.
